(** * goquest: the game package (rooms, egresses, items, State.New, State.Advance,
    ParseCommand), shallowly embedded.

    Conventions of the embedding:
    - a Go [string] is a Rocq [string] (a byte string), except in [ParseCommand],
      whose library calls [strings.ToUpper] and [strings.Fields] work on runes:
      there the input is its sequence of runes ([list Z]);
    - a slice is a [list]; a pointer [*T] is an [option T] ([None] is [nil]),
      which is enough since none of the embedded functions writes through a
      pointer to a room;
    - a Go map is [option (gmap K V)]: [None] is the nil map, which reads as
      empty and panics on assignment;
    - a Go panic is the [Panic] outcome of [result];
    - [for _, x := range xs] reuses one variable [x] for all iterations (the
      loop-variable semantics of every Go version before 1.22, which is what a
      module declaring an earlier [go] version gets), so [&x] taken inside the
      loop points, after the loop, at the last element of [xs]. *)

From Stdlib Require Import String Ascii ZArith Bool List Lia.
From stdpp Require Import base gmap strings list.
Import ListNotations.

Open Scope string_scope.

(** ** Outcomes *)

(** A Go computation either returns normally or panics. *)
Inductive result (A : Type) : Type :=
| Ok (a : A)
| Panic (msg : string).
Arguments Ok {A} a.
Arguments Panic {A} msg.

Definition nil_deref_msg : string :=
  "runtime error: invalid memory address or nil pointer dereference".
Definition nil_map_msg : string := "assignment to entry in nil map".

(** The errors built by [fmt.Errorf] in the game package, one constructor per
    call site; the arguments are the values the format string interpolates. *)
Inductive error : Type :=
| ErrDuplicateLabel (label : string)
| ErrDuplicateAlias (alias label : string)
| ErrNoStart (label : string)
| ErrQuit
| ErrNoSuchExit (recipient : string)
| ErrLookTarget
| ErrDebugTarget (recipient : string)
| ErrUnknownVerb (verb : string)
| ErrWrite
| ErrFlush.

Definition nl : string := String (ascii_of_nat 10) EmptyString.

(** ** Data model (game.go) *)

Module Item.
Record Item : Type := mkItem {
  Label : string;
  Name : string;
  Description : string;
  Aliases : list string
}.
End Item.
Abbreviation Item := Item.Item.

Module Egress.
Record Egress : Type := mkEgress {
  DestLabel : string;
  Description : string;
  TravelMessage : string;
  Aliases : list string
}.
End Egress.
Abbreviation Egress := Egress.Egress.

Module Room.
Record Room : Type := mkRoom {
  Label : string;
  Name : string;
  Description : string;
  Exits : list Egress;
  Items : list Item
}.
End Room.
Abbreviation Room := Room.Room.

(** [Copy] allocates fresh slices and copies every field; as a value it is the
    same record. *)
Definition Item_Copy (it : Item) : Item :=
  Item.mkItem (Item.Label it) (Item.Name it) (Item.Description it) (Item.Aliases it).
Definition Egress_Copy (eg : Egress) : Egress :=
  Egress.mkEgress (Egress.DestLabel eg) (Egress.Description eg)
    (Egress.TravelMessage eg) (Egress.Aliases eg).
Definition Room_Copy (r : Room) : Room :=
  Room.mkRoom (Room.Label r) (Room.Name r) (Room.Description r)
    (map Egress_Copy (Room.Exits r)) (map Item_Copy (Room.Items r)).

(** [for _, al := range aliases { if al == alias { ...; break } }]: whether the
    inner loop reaches its [if] body. *)
Definition has_alias (aliases : list string) (alias : string) : bool :=
  existsb (fun al => String.eqb al alias) aliases.

(** The outer loop of [GetEgressByAlias]: threads the loop variable [eg] and
    whether [foundEgress] has been set to [&eg]. *)
Fixpoint egress_scan (alias : string) (exits : list Egress)
    (eg : option Egress) (found : bool) : option Egress * bool :=
  match exits with
  | [] => (eg, found)
  | e :: rest =>
      (* eg = e; inner loop may set foundEgress = &eg *)
      egress_scan alias rest (Some e) (found || has_alias (Egress.Aliases e) alias)
  end.

(** [func (room Room) GetEgressByAlias(alias string) *Egress]; the result is
    the egress the returned pointer points at when the function returns. *)
Definition GetEgressByAlias (room : Room) (alias : string) : option Egress :=
  let '(eg, found) := egress_scan alias (Room.Exits room) None false in
  if found then eg else None.

(** [GetEgress] (the name [Advance] calls) has the same body. *)
Definition GetEgress (room : Room) (alias : string) : option Egress :=
  let '(eg, found) := egress_scan alias (Room.Exits room) None false in
  if found then eg else None.

Fixpoint item_scan (alias : string) (items : list Item)
    (it : option Item) (found : bool) : option Item * bool :=
  match items with
  | [] => (it, found)
  | i :: rest => item_scan alias rest (Some i) (found || has_alias (Item.Aliases i) alias)
  end.

(** [func (room Room) GetItemByAlias(alias string) *Item]. *)
Definition GetItemByAlias (room : Room) (alias : string) : option Item :=
  let '(it, found) := item_scan alias (Room.Items room) None false in
  if found then it else None.

(** The first loop of [RemoveItem]: [itemIndex] after the loop ([None] is -1). *)
Fixpoint item_index (label : string) (items : list Item) : option nat :=
  match items with
  | [] => None
  | it :: rest =>
      if String.eqb (Item.Label it) label then Some 0
      else option_map S (item_index label rest)
  end.

(** [func (room *Room) RemoveItem(label string)]: the room after the call. *)
Definition RemoveItem (room : Room) (label : string) : Room :=
  match item_index label (Room.Items room) with
  | None => room
  | Some i =>
      Room.mkRoom (Room.Label room) (Room.Name room) (Room.Description room)
        (Room.Exits room) (take i (Room.Items room) ++ drop (S i) (Room.Items room))
  end.

(** [fmt]'s [%q] verb; Go's escaping of special characters inside the quotes is
    not modelled (only the debug dump uses it). *)
Definition dq : string := String (ascii_of_nat 34) EmptyString.
Definition quote (s : string) : string := dq ++ s ++ dq.

(** [func (egress Egress) String() string]. *)
Definition Egress_String (eg : Egress) : string :=
  "Egress(" ++ "[" ++ String.concat " " (map quote (Egress.Aliases eg)) ++ "]"
    ++ " -> " ++ Egress.DestLabel eg ++ ")".

(** [func (room Room) String() string]. *)
Definition Room_String (room : Room) : string :=
  "Room<" ++ Room.Label room ++ " " ++ quote (Room.Name room) ++ " EXITS: "
    ++ String.concat ", " (map Egress_String (Room.Exits room)) ++ ">".

(** ** Commands and state (Command; State of rooms.go) *)

Record Command : Type := mkCommand {
  Verb : string;
  Instrument : string;
  Recipient : string
}.

Definition zeroCommand : Command := mkCommand "" "" "".

(** [State] of rooms.go: [World map[string]*Room], [CurrentRoom *Room],
    [Inventory []string]. *)
Record State : Type := mkState {
  World : option (gmap string (option Room));
  CurrentRoom : option Room;
  Inventory : list string
}.

(** [m[k]] on a [map[string]*Room]: the zero value [nil] when absent. *)
Definition map_get (m : option (gmap string (option Room))) (k : string) : option Room :=
  match m with
  | None => None
  | Some g => match g !! k with Some v => v | None => None end
  end.

(** [_, ok := m[k]]. *)
Definition map_has (m : option (gmap string (option Room))) (k : string) : bool :=
  match m with
  | None => false
  | Some g => bool_decide (is_Some (g !! k))
  end.

(** [m[k] = v]: panics on the nil map. *)
Definition map_set (m : option (gmap string (option Room))) (k : string) (v : option Room)
  : result (option (gmap string (option Room))) :=
  match m with
  | None => Panic nil_map_msg
  | Some g => Ok (Some (<[k := v]> g))
  end.

(** The buffered writer [ostream]: whether its [WriteString] and its [Flush]
    report an error. *)
Record Writer : Type := mkWriter {
  write_fails : bool;
  flush_fails : bool
}.

Definition okWriter : Writer := mkWriter false false.

(** The outcome of [gs.Advance(cmd, ostream)]: the state [*gs] afterwards, the
    text handed to [ostream.WriteString] ([None] if it is not called), and the
    returned error ([None] is [nil]). *)
Abbreviation outcome := (State * option string * option error)%type.

(** The tail of [Advance]: write [output + "\n\n"], then flush. *)
Definition emit (gs : State) (output : string) (w : Writer) : result outcome :=
  let text := output ++ nl ++ nl in
  if write_fails w then Ok (gs, Some text, Some ErrWrite)
  else if flush_fails w then Ok (gs, Some text, Some ErrFlush)
  else Ok (gs, Some text, None).

(** The body of the [EXITS] case. *)
Definition exit_table (exits : list Egress) : string :=
  fold_left (fun exitTable eg =>
    exitTable ++ String.concat "/" (Egress.Aliases eg) ++ " -> "
      ++ Egress.Description eg ++ nl) exits "".

Definition help_text : string :=
  "Here are the commands you can use (WIP commands do not yet work fully):" ++ nl
  ++ "HELP       - show this help" ++ nl
  ++ "DROP/PUT   - put down an object in the room [WIP]" ++ nl
  ++ "DEBUG ROOM - print info on the current room" ++ nl
  ++ "EXITS      - show the names of all exits from the room" ++ nl
  ++ "GO/MOVE    - go to another room via one of the exits" ++ nl
  ++ "LOOK       - show the description of the room" ++ nl
  ++ "QUIT/EXIT  - end the game" ++ nl
  ++ "TAKE/GET   - pick up an object in the room [WIP]" ++ nl
  ++ "TALK/SPEAK - talk to someone/something in the room [WIP]" ++ nl
  ++ "USE        - use an object in your inventory [WIP]" ++ nl.

(** [func (gs *State) Advance(cmd Command, ostream *bufio.Writer) error]
    (rooms.go).  Every use of [gs.CurrentRoom] dereferences it. *)
Definition Advance (gs : State) (cmd : Command) (w : Writer) : result outcome :=
  if String.eqb (Verb cmd) "QUIT" then Ok (gs, None, Some ErrQuit)
  else if String.eqb (Verb cmd) "GO" then
    match CurrentRoom gs with
    | None => Panic nil_deref_msg
    | Some cur =>
        match GetEgress cur (Recipient cmd) with
        | None => Ok (gs, None, Some (ErrNoSuchExit (Recipient cmd)))
        | Some egress =>
            let gs' := mkState (World gs) (map_get (World gs) (Egress.DestLabel egress))
                         (Inventory gs) in
            emit gs' (Egress.TravelMessage egress) w
        end
    end
  else if String.eqb (Verb cmd) "EXITS" then
    match CurrentRoom gs with
    | None => Panic nil_deref_msg
    | Some cur => emit gs (exit_table (Room.Exits cur)) w
    end
  else if String.eqb (Verb cmd) "LOOK" then
    if negb (String.eqb (Recipient cmd) "") then Ok (gs, None, Some ErrLookTarget)
    else match CurrentRoom gs with
         | None => Panic nil_deref_msg
         | Some cur => emit gs (Room.Description cur) w
         end
  else if String.eqb (Verb cmd) "DEBUG" then
    if String.eqb (Recipient cmd) "ROOM" then
      match CurrentRoom gs with
      | None => Panic nil_deref_msg
      | Some cur => emit gs (Room_String cur) w
      end
    else Ok (gs, None, Some (ErrDebugTarget (Recipient cmd)))
  else if String.eqb (Verb cmd) "HELP" then emit gs help_text w
  else Ok (gs, None, Some (ErrUnknownVerb (Verb cmd))).

(** ** State.New (rooms.go) *)

(** The alias sanity check of [New]: the inner loops over [r.Exits] and
    [eg.Aliases], testing [seenAliases[alias]]; the first alias found in
    [seenAliases] is returned.  The loop body never stores into [seenAliases],
    so the same set is passed on. *)
Fixpoint alias_check (seenAliases : gset string) (exits : list Egress) : option string :=
  match exits with
  | [] => None
  | eg :: rest =>
      match List.find (fun alias => bool_decide (alias ∈ seenAliases)) (Egress.Aliases eg) with
      | Some alias => Some alias
      | None => alias_check seenAliases rest
      end
  end.

(** The [for _, r := range world] loop of [New]: [Ok (gs, Some e)] is an early
    [return gs, e], [Ok (gs, None)] falls through to after the loop. *)
Fixpoint new_loop (gs : State) (world : list Room) : result (State * option error) :=
  match world with
  | [] => Ok (gs, None)
  | r :: rest =>
      if map_has (World gs) (Room.Label r) then Ok (gs, Some (ErrDuplicateLabel (Room.Label r)))
      else
        let seenAliases : gset string := ∅ in
        match alias_check seenAliases (Room.Exits r) with
        | Some alias => Ok (gs, Some (ErrDuplicateAlias alias (Room.Label r)))
        | None =>
            let roomCopy := Room_Copy r in
            match map_set (World gs) (Room.Label r) (Some roomCopy) with
            | Panic m => Panic m
            | Ok w => new_loop (mkState w (CurrentRoom gs) (Inventory gs)) rest
            end
        end
  end.

(** [func New(world []Room, startingRoom string) (State, error)]; [gs := State{}]
    leaves [gs.World] the nil map. *)
Definition New (world : list Room) (startingRoom : string) : result (State * option error) :=
  let gs := mkState None None [] in
  match new_loop gs world with
  | Panic m => Panic m
  | Ok (gs, Some e) => Ok (gs, Some e)
  | Ok (gs, None) =>
      let gs := mkState (World gs) (map_get (World gs) startingRoom) (Inventory gs) in
      if negb (map_has (World gs) startingRoom) then Ok (gs, Some (ErrNoStart startingRoom))
      else Ok (gs, None)
  end.

(** ** Concrete data: [DefaultRooms] (rooms.go) *)

Definition bedroom_to_bathroom : Egress :=
  Egress.mkEgress "BATHROOM" "your bathroom door"
    "You go through the door and enter the bathroom."
    ["BATHROOM"; "TOILET"; "DOOR"; "EAST"].
Definition bedroom_to_hallway : Egress :=
  Egress.mkEgress "HALLWAY" "the door to the hall"
    "You shut the door behind you as you go into the hall."
    ["HALLWAY"; "HALL"; "OUT"; "SOUTH"].
Definition your_room : Room :=
  Room.mkRoom "YOUR_ROOM" "your bedroom" ("You are standing in your bedroom. Perhaps you are a young person who"
     ++ " only now, on your 13th birthday, will receive a name. You have a pretty window"
     ++ " in the corner overlooking the world outside. There's a door leading to your"
     ++ " bathroom. to the east, and a door leading to the hall to the south.")
    [bedroom_to_bathroom; bedroom_to_hallway] [].
Definition bathroom : Room :=
  Room.mkRoom "BATHROOM" "your ensuite bathroom" ("You are in the bathroom attached to your bedroom. There's a toilet,"
     ++ " pristine due to your constant efforts to keep it clean, next to a sink and"
     ++ " bathtub. You enjoy having your amenities not be a complete mess. The currently"
     ++ " closed door to the west leads back to your bedroom.")
    [Egress.mkEgress "YOUR_ROOM" "the door" "You head back into the bedroom."
       ["BEDROOM"; "ROOM"; "DOOR"; "WEST"]] [].
Definition hallway : Room :=
  Room.mkRoom "HALLWAY" "the main hallway in your house" ("This is the main hallway in your house that connects the bedrooms with"
     ++ " the living room and kitchen. There's a doorway at the end, but it seems boarded"
     ++ " up, and you're pretty sure that's because it represents the limits of the game"
     ++ " you're in. I guess you're stuck here. In your home. Housetrapped." ++ nl
     ++ " Anyways, there's also your bedroom door at the north end.")
    [Egress.mkEgress "YOUR_ROOM" "the door to your bedroom"
       "You step into your bedroom, closing the door behind you for privacy."
       ["BEDROOM"; "ROOM"; "NORTH"]] [].
Definition DefaultRooms : list Room := [your_room; bathroom; hallway].

(** The state [New(DefaultRooms, StartLabel)] is meant to build. *)
Definition default_world : gmap string (option Room) :=
  <["YOUR_ROOM" := Some your_room]> (<["BATHROOM" := Some bathroom]>
    (<["HALLWAY" := Some hallway]> ∅)).
Definition default_state : State := mkState (Some default_world) (Some your_room) [].

Example ex_new_default : New DefaultRooms "YOUR_ROOM" = Panic nil_map_msg.
Proof. reflexivity. Qed.
Example ex_go_east :
  Advance default_state (mkCommand "GO" "" "EAST") okWriter
  = Ok (mkState (Some default_world) (Some hallway) [],
        Some ("You shut the door behind you as you go into the hall." ++ nl ++ nl), None).
Proof. reflexivity. Qed.

(** ** ParseCommand *)

(** [unicode.IsSpace]. *)
Definition isSpace (r : Z) : bool :=
  if (r <=? 255)%Z then
    existsb (Z.eqb r) [9; 10; 11; 12; 13; 32; 133; 160]%Z
  else
    existsb (Z.eqb r) [5760; 8232; 8233; 8239; 8287; 12288]%Z
    || ((8192 <=? r) && (r <=? 8202))%Z.

(** [unicode.ToUpper], exact on the runes up to U+00FF; above that range
    Go's case table is not modelled and runes are left as they are (this
    agrees with Go on every white-space rune, none of which has a case). *)
Definition toUpperRune (r : Z) : Z :=
  if ((97 <=? r) && (r <=? 122))%Z then (r - 32)%Z
  else if ((224 <=? r) && (r <=? 254) && negb (r =? 247))%Z then (r - 32)%Z
  else if (r =? 255)%Z then 376%Z
  else if (r =? 181)%Z then 924%Z
  else r.

(** [strings.ToUpper]. *)
Definition ToUpper (s : list Z) : list Z := map toUpperRune s.

(** [strings.Fields]: the maximal runs of non-space runes; [cur] is the run
    being read, reversed. *)
Fixpoint fields_aux (s : list Z) (cur : list Z) : list (list Z) :=
  match s with
  | [] => match cur with [] => [] | _ => [rev cur] end
  | r :: rest =>
      if isSpace r then
        match cur with
        | [] => fields_aux rest []
        | _ => rev cur :: fields_aux rest []
        end
      else fields_aux rest (r :: cur)
  end.
Definition Fields (s : list Z) : list (list Z) := fields_aux s [].

(** Where [ParseCommand] stops: it returns, or it continues past
    [parsedCmd.Verb = tokens[0]] into the keyword [switch], which the source
    leaves unfinished ([Continues] carries the tokens it would match on). *)
Inductive parse_outcome : Type :=
| Returns (c : Command) (err : option error)
| Continues (tokens : list (list Z)).

(** [func ParseCommand(toParse string) (Command, error)]. *)
Definition ParseCommand (toParse : list Z) : parse_outcome :=
  let parsedCmd := zeroCommand in
  let normalizedCase := ToUpper toParse in
  let tokens := Fields normalizedCase in
  if (length tokens <? 1)%nat then Returns parsedCmd None
  else Continues tokens.

Example ex_fields : Fields [32; 103; 111; 9; 101; 32; 32]%Z = [[103; 111]; [101]]%Z.
Proof. reflexivity. Qed.
Example ex_parse_blank : ParseCommand [32; 10; 160]%Z = Returns zeroCommand None.
Proof. reflexivity. Qed.

(** ** Further definitions used by the properties *)

(** The error [Advance] returns after a successful case, given the writer. *)
Definition io_error (w : Writer) : option error :=
  if write_fails w then Some ErrWrite else if flush_fails w then Some ErrFlush else None.

(** The EXITS narration in the spec's words: one line per exit, in order,
    made of the exit's aliases joined by "/", then " -> ", then the exit's
    long description. *)
Fixpoint exits_narration (exits : list Egress) : string :=
  match exits with
  | [] => ""
  | eg :: rest =>
      (String.concat "/" (Egress.Aliases eg) ++ " -> " ++ Egress.Description eg ++ nl)
        ++ exits_narration rest
  end.

(** A room whose first exit leads to a label missing from the world. *)
Definition portal_out : Egress :=
  Egress.mkEgress "NOWHERE" "a shimmering portal" "You step through the portal." ["PORTAL"].
Definition door_out : Egress :=
  Egress.mkEgress "YOUR_ROOM" "a plain door" "You open the door." ["DOOR"].
Definition portal_room : Room :=
  Room.mkRoom "PORTAL_ROOM" "a strange room" "A room with a portal and a door."
    [portal_out; door_out] [].
Definition portal_state : State :=
  mkState (Some (<["PORTAL_ROOM" := Some portal_room]> (<["YOUR_ROOM" := Some your_room]> ∅)))
    (Some portal_room) [].
(** A room whose only exit leads to a label missing from the world. *)
Definition dangling_room : Room :=
  Room.mkRoom "DANGLING" "a dead end" "A room with only a portal." [portal_out] [].
Definition dangling_state : State :=
  mkState (Some (<["DANGLING" := Some dangling_room]> ∅)) (Some dangling_room) [].

(** Two items of one room sharing the alias "KEY". *)
Definition key_item : Item := Item.mkItem "KEY" "a key" "A small brass key." ["KEY"].
Definition spare_key : Item :=
  Item.mkItem "SPARE_KEY" "a spare key" "A second, larger key." ["SPARE"; "KEY"].
Definition closet : Room :=
  Room.mkRoom "CLOSET" "a closet" "A cramped closet." [] [key_item; spare_key].

(** ** Package initialisation of the first rooms.go ([init]) *)

(** [AllRooms map[string]Room] is declared and never allocated: it starts as
    the nil map.  [init] panics on a duplicate label, on a duplicate alias
    (never reached, as in [New]), and on assigning into the nil map. *)
Fixpoint init_loop (AllRooms : option (gmap string Room)) (roomDefs : list Room)
  : result (option (gmap string Room)) :=
  match roomDefs with
  | [] => Ok AllRooms
  | r :: rest =>
      let ok := match AllRooms with
                | None => false
                | Some g => bool_decide (is_Some (g !! Room.Label r))
                end in
      if ok then Panic ("duplicate room label " ++ quote (Room.Label r) ++ " in roomDefs")
      else
        let seenAliases : gset string := ∅ in
        match alias_check seenAliases (Room.Exits r) with
        | Some alias =>
            Panic ("duplicate egress alias " ++ quote alias ++ " in room "
                   ++ quote (Room.Label r) ++ " in roomDefs")
        | None =>
            match AllRooms with
            | None => Panic nil_map_msg
            | Some g => init_loop (Some (<[Room.Label r := r]> g)) rest
            end
        end
  end.

Definition init (roomDefs : list Room) : result (option (gmap string Room)) :=
  init_loop None roomDefs.

(** [roomDefs] of the first rooms.go (descriptions as in the source). *)
Definition roomDefs : list Room :=
  [Room.mkRoom "YOUR_ROOM" "your bedroom"
     ("You are standing in your bedroom. Perhaps you are a young person who"
      ++ " only now, on your 13th birthday, will receive a name. You have a pretty window"
      ++ " the corner overlooking the world outside, and a door leading to your bathroom"
      ++ " to the east.")
     [bedroom_to_bathroom] [];
   bathroom].

(** ** The Room-valued [Advance] (part_000, first version) *)

(** [State] of that version: [Room Room], [Inventory []string]. *)
Record StateV1 : Type := mkStateV1 {
  V1Room : Room;
  V1Inventory : list string
}.

(** [Room{}]. *)
Definition zeroRoom : Room := Room.mkRoom "" "" "" [] [].

(** [AllRooms[k]] on a [map[string]Room]: [Room{}] when absent. *)
Definition rooms_get (m : option (gmap string Room)) (k : string) : Room :=
  match m with
  | None => zeroRoom
  | Some g => match g !! k with Some r => r | None => zeroRoom end
  end.

Abbreviation outcome_v1 := (StateV1 * option string * option error)%type.

Definition emit_v1 (gs : StateV1) (output : string) (w : Writer) : outcome_v1 :=
  let text := output ++ nl ++ nl in
  if write_fails w then (gs, Some text, Some ErrWrite)
  else if flush_fails w then (gs, Some text, Some ErrFlush)
  else (gs, Some text, None).

(** [func (gs *State) Advance(cmd Command, ostream *bufio.Writer) error], with
    the package-level [AllRooms] passed explicitly.  No pointer is
    dereferenced, so no case panics. *)
Definition Advance_v1 (AllRooms : option (gmap string Room)) (gs : StateV1) (cmd : Command)
    (w : Writer) : outcome_v1 :=
  if String.eqb (Verb cmd) "QUIT" then (gs, None, Some ErrQuit)
  else if String.eqb (Verb cmd) "GO" then
    match GetEgress (V1Room gs) (Recipient cmd) with
    | None => (gs, None, Some (ErrNoSuchExit (Recipient cmd)))
    | Some egress =>
        let newRoom := rooms_get AllRooms (Egress.DestLabel egress) in
        emit_v1 (mkStateV1 newRoom (V1Inventory gs)) (Egress.TravelMessage egress) w
    end
  else if String.eqb (Verb cmd) "EXITS" then emit_v1 gs (exit_table (Room.Exits (V1Room gs))) w
  else if String.eqb (Verb cmd) "LOOK" then
    if negb (String.eqb (Recipient cmd) "") then (gs, None, Some ErrLookTarget)
    else emit_v1 gs (Room.Description (V1Room gs)) w
  else if String.eqb (Verb cmd) "DEBUG" then
    if String.eqb (Recipient cmd) "ROOM" then emit_v1 gs (Room_String (V1Room gs)) w
    else (gs, None, Some (ErrDebugTarget (Recipient cmd)))
  else if String.eqb (Verb cmd) "HELP" then emit_v1 gs help_text w
  else (gs, None, Some (ErrUnknownVerb (Verb cmd))).

(** The six verbs [Advance] has a case for. *)
Definition known_verb (v : string) : bool :=
  existsb (String.eqb v) ["QUIT"; "GO"; "EXITS"; "LOOK"; "DEBUG"; "HELP"].

(** * Properties *)

(** ** Helper lemmas *)

Lemma find_in_empty (l : list string) :
  List.find (fun alias => bool_decide (alias ∈ (∅ : gset string))) l = None.
Proof.
  induction l as [|a l IH]; [done|]. cbn [List.find].
  rewrite bool_decide_eq_false_2 by set_solver. exact IH.
Qed.

(** The duplicate-alias test of [New] never fires: [seenAliases] stays empty. *)
Lemma alias_check_empty (exits : list Egress) : alias_check ∅ exits = None.
Proof.
  induction exits as [|eg rest IH]; simpl; [done|].
  rewrite find_in_empty. exact IH.
Qed.

(** On a non-empty room list, the first [gs.World[r.Label] = &roomCopy]
    assigns into the nil map. *)
Lemma New_cons_panics (r : Room) (rs : list Room) (s : string) :
  New (r :: rs) s = Panic nil_map_msg.
Proof. unfold New. simpl. rewrite alias_check_empty. reflexivity. Qed.

Lemma New_nil (s : string) :
  New [] s = Ok (mkState None None [], Some (ErrNoStart s)).
Proof. reflexivity. Qed.

Lemma toUpperRune_space (r : Z) : isSpace r = true -> toUpperRune r = r.
Proof.
  unfold isSpace, toUpperRune. intros H.
  destruct (Z.leb_spec r 255) as [Hle|Hgt].
  - simpl in H.
    repeat (apply orb_true_iff in H as [H|H]);
      try (apply Z.eqb_eq in H; subst r; reflexivity); discriminate.
  - destruct (Z.leb_spec 97 r), (Z.leb_spec r 122), (Z.leb_spec 224 r),
      (Z.leb_spec r 254), (Z.eqb_spec r 247), (Z.eqb_spec r 255), (Z.eqb_spec r 181);
      simpl; try reflexivity; lia.
Qed.

Lemma fields_aux_spaces (s : list Z) :
  forallb isSpace s = true -> fields_aux s [] = [].
Proof.
  induction s as [|r s IH]; simpl; [done|].
  intros [Hr Hs]%andb_prop. rewrite Hr. exact (IH Hs).
Qed.

Lemma ToUpper_spaces (s : list Z) :
  forallb isSpace s = true -> ToUpper s = s.
Proof.
  induction s as [|r s IH]; simpl; [done|].
  intros [Hr Hs]%andb_prop. rewrite toUpperRune_space by exact Hr. f_equal. exact (IH Hs).
Qed.

(** ** C1 *)

(** C1 (code_bug): [New] is meant to build a [State] whose [CurrentRoom] is
    the starting room, or fail with an error.  On every non-empty room list it
    panics instead ("assignment to entry in nil map"): [gs := State{}] never
    allocates [gs.World] before [gs.World[r.Label] = &roomCopy]. *)
Theorem C1_New_panics_on_default_rooms :
  New DefaultRooms "YOUR_ROOM" = Panic nil_map_msg
  /\ (forall (r : Room) (rs : list Room) (s : string), New (r :: rs) s = Panic nil_map_msg).
Proof. split; [apply New_cons_panics | intros; apply New_cons_panics]. Qed.

(** ** C2 *)

(** C2 (code_bug): a room whose exits repeat an alias is meant to be rejected
    with the duplicate-egress-alias error; [New] never returns that error, for
    any room list (the alias loop never records an alias in [seenAliases]). *)
Theorem C2_New_never_reports_duplicate_alias :
  forall (world : list Room) (startingRoom : string) (gs : State) (alias label : string),
  New world startingRoom <> Ok (gs, Some (ErrDuplicateAlias alias label)).
Proof.
  intros [|r rs] s gs a l.
  - rewrite New_nil. congruence.
  - rewrite New_cons_panics. congruence.
Qed.

(** ** C6 *)

(** C6: [Advance] of a QUIT command returns an error, writes nothing to the
    output stream and leaves the state unchanged, whatever the state and the
    writer. *)
Theorem C6_Advance_quit (gs : State) (cmd : Command) (w : Writer) :
  Verb cmd = "QUIT" -> Advance gs cmd w = Ok (gs, None, Some ErrQuit).
Proof. intros H. unfold Advance. rewrite H. reflexivity. Qed.

Lemma C6_Advance_quit_witness :
  Verb (mkCommand "QUIT" "" "") = "QUIT"
  /\ Advance default_state (mkCommand "QUIT" "" "") okWriter
     = Ok (default_state, None, Some ErrQuit).
Proof. split; [reflexivity | apply C6_Advance_quit; reflexivity]. Defined.

(** ** C9 *)

(** C9: on an empty input or one made only of white space (as
    [unicode.IsSpace] defines it), [ParseCommand] returns the zero [Command]
    (empty [Verb]) and a nil error. *)
Theorem C9_ParseCommand_blank (toParse : list Z) :
  forallb isSpace toParse = true -> ParseCommand toParse = Returns zeroCommand None.
Proof.
  intros H. unfold ParseCommand, Fields.
  rewrite ToUpper_spaces by exact H. rewrite fields_aux_spaces by exact H.
  reflexivity.
Qed.

Lemma C9_ParseCommand_blank_witness :
  forallb isSpace [32; 32; 9; 10]%Z = true
  /\ ParseCommand [32; 32; 9; 10]%Z = Returns zeroCommand None.
Proof. split; [reflexivity | apply C9_ParseCommand_blank; reflexivity]. Defined.

(** ** Lookup and string helpers *)

Lemma has_alias_In (aliases : list string) (alias : string) :
  has_alias aliases alias = true <-> In alias aliases.
Proof.
  unfold has_alias. rewrite existsb_exists. split.
  - intros (x & Hx & E). apply String.eqb_eq in E. subst x. exact Hx.
  - intros H. exists alias. split; [exact H | apply String.eqb_refl].
Qed.

Lemma last_default_irrelevant {A} (l : list A) (d d' : A) :
  l <> [] -> List.last l d = List.last l d'.
Proof.
  induction l as [|a l IH]; intros Hne; [done|].
  destruct l as [|b l]; [reflexivity|].
  transitivity (List.last (b :: l) d); [reflexivity|].
  transitivity (List.last (b :: l) d'); [|reflexivity].
  apply IH. discriminate.
Qed.

Lemma last_cons_default {A} (x : A) (l : list A) (d : A) :
  List.last (x :: l) d = List.last l x.
Proof.
  destruct l as [|y l]; [reflexivity|].
  transitivity (List.last (y :: l) d); [reflexivity|].
  apply last_default_irrelevant. discriminate.
Qed.

Lemma last_map_Some {A} (l : list A) :
  l <> [] -> List.last (map Some l) None <> None.
Proof.
  induction l as [|a l IH]; intros Hne; [done|].
  destruct l as [|b l]; [discriminate|].
  rewrite map_cons, last_cons_default, (last_default_irrelevant _ _ None).
  - apply IH. discriminate.
  - discriminate.
Qed.

(** After the outer loop: the loop variable holds the last exit, and
    [foundEgress] is [&eg] iff some exit carries the alias. *)
Lemma egress_scan_spec (alias : string) (exits : list Egress) (eg : option Egress) (found : bool) :
  egress_scan alias exits eg found
  = (List.last (map Some exits) eg,
     found || existsb (fun e => has_alias (Egress.Aliases e) alias) exits).
Proof.
  revert eg found. induction exits as [|e rest IH]; intros eg found; simpl.
  - rewrite orb_false_r. reflexivity.
  - rewrite IH, orb_assoc. f_equal. symmetry. apply last_cons_default.
Qed.

Lemma GetEgress_spec (room : Room) (alias : string) :
  GetEgress room alias
  = if existsb (fun e => has_alias (Egress.Aliases e) alias) (Room.Exits room)
    then List.last (map Some (Room.Exits room)) None else None.
Proof. unfold GetEgress. rewrite egress_scan_spec. reflexivity. Qed.

Lemma GetEgressByAlias_spec (room : Room) (alias : string) :
  GetEgressByAlias room alias
  = if existsb (fun e => has_alias (Egress.Aliases e) alias) (Room.Exits room)
    then List.last (map Some (Room.Exits room)) None else None.
Proof. unfold GetEgressByAlias. rewrite egress_scan_spec. reflexivity. Qed.

(** The "absent iff no exit carries the alias" half of the lookup contract
    holds. *)
Lemma GetEgressByAlias_none_iff (room : Room) (alias : string) :
  GetEgressByAlias room alias = None
  <-> ~ Exists (fun e => In alias (Egress.Aliases e)) (Room.Exits room).
Proof.
  rewrite GetEgressByAlias_spec.
  destruct (existsb _ _) eqn:E.
  - apply existsb_exists in E as (e & He & Ha). apply has_alias_In in Ha.
    split; [|intros Hn; exfalso; apply Hn, List.Exists_exists; eauto].
    intros Hl. exfalso. revert Hl. apply last_map_Some.
    intros Hn. rewrite Hn in He. exact He.
  - split; [|done]. intros _ Hex. apply List.Exists_exists in Hex as (e & He & Ha).
    apply has_alias_In in Ha.
    assert (existsb (fun e => has_alias (Egress.Aliases e) alias) (Room.Exits room) = true)
      as Ht by (apply existsb_exists; eauto).
    congruence.
Qed.

Lemma item_scan_found (alias : string) (items : list Item) (it : option Item) (found : bool) :
  snd (item_scan alias items it found)
  = found || existsb (fun i => has_alias (Item.Aliases i) alias) items.
Proof.
  revert it found. induction items as [|i rest IH]; intros it found; simpl.
  - rewrite orb_false_r. reflexivity.
  - rewrite IH, orb_assoc. reflexivity.
Qed.

Lemma GetItemByAlias_absent (room : Room) (alias : string) :
  Forall (fun i => ~ In alias (Item.Aliases i)) (Room.Items room) ->
  GetItemByAlias room alias = None.
Proof.
  intros H. unfold GetItemByAlias.
  pose proof (item_scan_found alias (Room.Items room) None false) as Hf.
  destruct (item_scan alias (Room.Items room) None false) as [it found]. simpl in Hf.
  replace (existsb _ _) with false in Hf; [subst found; reflexivity|].
  symmetry. apply not_true_iff_false. intros Hex.
  apply existsb_exists in Hex as (i & Hi & Ha). apply has_alias_In in Ha.
  rewrite List.Forall_forall in H. exact (H i Hi Ha).
Qed.

Lemma item_index_absent (label : string) (items : list Item) :
  Forall (fun i => Item.Label i <> label) items -> item_index label items = None.
Proof.
  induction 1 as [|i rest Hi _ IH]; simpl; [done|].
  apply String.eqb_neq in Hi. rewrite Hi, IH. reflexivity.
Qed.

Lemma item_index_app (label : string) (pre post : list Item) (it : Item) :
  Forall (fun i => Item.Label i <> label) pre -> Item.Label it = label ->
  item_index label (pre ++ it :: post) = Some (length pre).
Proof.
  intros Hpre Hit. induction Hpre as [|i rest Hi _ IH]; simpl.
  - rewrite Hit, String.eqb_refl. reflexivity.
  - apply String.eqb_neq in Hi. rewrite Hi, IH. reflexivity.
Qed.

Lemma take_drop_skip {A} (pre post : list A) (x : A) :
  (take (length pre) (pre ++ x :: post) ++ drop (S (length pre)) (pre ++ x :: post) = pre ++ post)%list.
Proof. induction pre as [|y pre IH]; simpl; [reflexivity|]. f_equal. exact IH. Qed.

Lemma append_assoc_str (a b c : string) : (a ++ b) ++ c = a ++ (b ++ c).
Proof.
  induction a as [|ch a IH]; [reflexivity|].
  change (String ch ((a ++ b) ++ c) = String ch (a ++ (b ++ c))). rewrite IH. reflexivity.
Qed.

Lemma append_empty_l (a : string) : "" ++ a = a.
Proof. reflexivity. Qed.

Lemma exit_table_acc (exits : list Egress) (acc : string) :
  fold_left (fun exitTable eg =>
    exitTable ++ String.concat "/" (Egress.Aliases eg) ++ " -> "
      ++ Egress.Description eg ++ nl) exits acc
  = acc ++ exits_narration exits.
Proof.
  revert acc. induction exits as [|eg rest IH]; intros acc; simpl.
  - induction acc as [|ch acc IHa]; [reflexivity|].
    change (String ch acc = String ch (acc ++ "")). rewrite <- IHa. reflexivity.
  - rewrite IH, append_assoc_str. reflexivity.
Qed.

Lemma exit_table_spec (exits : list Egress) : exit_table exits = exits_narration exits.
Proof. unfold exit_table. rewrite exit_table_acc. reflexivity. Qed.

Lemma map_get_absent (m : option (gmap string (option Room))) (k : string) :
  map_has m k = false -> map_get m k = None.
Proof.
  destruct m as [g|]; simpl; [|done].
  intros H. apply bool_decide_eq_false in H.
  destruct (g !! k); [exfalso; apply H; eauto | reflexivity].
Qed.

Lemma emit_state (gs gs' : State) (output : string) (w : Writer) (text : option string)
    (e : option error) :
  emit gs output w = Ok (gs', text, e) -> gs' = gs /\ e = io_error w.
Proof. unfold emit, io_error. intros Hem. repeat case_match; simplify_eq; auto. Qed.

(** Every error of [Advance] other than a failed write or flush leaves the
    state as it was. *)
Lemma Advance_command_error_unchanged (gs gs' : State) (cmd : Command) (w : Writer)
    (text : option string) (e : error) :
  Advance gs cmd w = Ok (gs', text, Some e) -> e <> ErrWrite -> e <> ErrFlush -> gs' = gs.
Proof.
  intros Hadv Hw Hf. unfold Advance in Hadv.
  repeat (case_match; simplify_eq; try done);
    match goal with
    | Hem : emit _ _ _ = Ok _ |- _ =>
        apply emit_state in Hem as [-> He]; unfold io_error in He;
        repeat case_match; simplify_eq; done
    end.
Qed.

(** GO with a Recipient no exit carries: an error naming the Recipient,
    nothing written, state unchanged. *)
Lemma Advance_go_no_exit (gs : State) (cur : Room) (cmd : Command) (w : Writer) :
  CurrentRoom gs = Some cur -> Verb cmd = "GO" ->
  ~ Exists (fun e => In (Recipient cmd) (Egress.Aliases e)) (Room.Exits cur) ->
  Advance gs cmd w = Ok (gs, None, Some (ErrNoSuchExit (Recipient cmd))).
Proof.
  intros Hc Hv Hn. apply GetEgressByAlias_none_iff in Hn.
  unfold GetEgressByAlias in Hn. fold (GetEgress cur (Recipient cmd)) in Hn.
  unfold Advance. rewrite Hv, Hc. simpl. rewrite Hn. reflexivity.
Qed.

(** ** C3 *)

(** C3 (code_bug): a failing [Advance] is meant to leave the state unchanged.
    In the GO case [gs.CurrentRoom] is moved before the output is written and
    flushed, so a flush failure returns an error with the player already in
    the new room.  From [YOUR_ROOM] of [DefaultRooms], GO SOUTH with a writer
    whose flush fails returns the flush error and leaves the player in the
    hallway. *)
Theorem C3_Advance_flush_error_after_move :
  Advance default_state (mkCommand "GO" "" "SOUTH") (mkWriter false true)
  = Ok (mkState (Some default_world) (Some hallway) [],
        Some ("You shut the door behind you as you go into the hall." ++ nl ++ nl),
        Some ErrFlush)
  /\ CurrentRoom default_state = Some your_room /\ your_room <> hallway.
Proof. split; [reflexivity | split; [reflexivity | discriminate]]. Qed.

(** ** C4 *)

(** C4 (code_bug): GO with an alias of an exit of the current room is meant to
    move to that exit's destination.  In [YOUR_ROOM] of [DefaultRooms], "EAST"
    is an alias of the bathroom door only, yet GO EAST moves the player to the
    hallway with the hallway door's travel message: [GetEgress] returns
    [&eg], the loop variable, which holds the room's last exit once the loop
    is over. *)
Theorem C4_Advance_go_east_reaches_hallway :
  In "EAST" (Egress.Aliases bedroom_to_bathroom)
  /\ Egress.DestLabel bedroom_to_bathroom = "BATHROOM"
  /\ ~ In "EAST" (Egress.Aliases bedroom_to_hallway)
  /\ Advance default_state (mkCommand "GO" "" "EAST") okWriter
     = Ok (mkState (Some default_world) (Some hallway) [],
           Some ("You shut the door behind you as you go into the hall." ++ nl ++ nl), None).
Proof.
  split; [simpl; tauto|]. split; [reflexivity|]. split; [|reflexivity].
  simpl. intros H. repeat (destruct H as [H|H]; [discriminate|]). exact H.
Qed.

(** ** C5 *)

(** C5 (code_bug): [GetEgressByAlias] is meant to return the exit carrying the
    alias (the first one in order).  For [YOUR_ROOM] and "EAST" it returns the
    hallway door, the room's last exit, which does not carry "EAST"; the first
    (and only) exit carrying it is the bathroom door. *)
Theorem C5_GetEgressByAlias_returns_last_exit :
  GetEgressByAlias your_room "EAST" = Some bedroom_to_hallway
  /\ List.find (fun e => has_alias (Egress.Aliases e) "EAST") (Room.Exits your_room)
     = Some bedroom_to_bathroom
  /\ bedroom_to_hallway <> bedroom_to_bathroom.
Proof. split; [reflexivity | split; [reflexivity | discriminate]]. Qed.

(** ** C7 *)

(** C7 (code_bug): in [portal_room] the PORTAL exit leads to the missing
    label "NOWHERE".  GO PORTAL does not follow it: [GetEgress] returns the
    room's last exit (the [&eg] slip of C4 and C5), so [CurrentRoom] becomes
    the room behind that exit (YOUR_ROOM), not nil, and the written message is
    that exit's travel message, not PORTAL's. *)
Lemma C7_dangling_not_last_exit :
  In "PORTAL" (Egress.Aliases portal_out)
  /\ map_has (World portal_state) (Egress.DestLabel portal_out) = false
  /\ Advance portal_state (mkCommand "GO" "" "PORTAL") okWriter
     = Ok (mkState (World portal_state) (Some your_room) [],
           Some ("You open the door." ++ nl ++ nl), None).
Proof. split; [simpl; tauto | split; reflexivity]. Qed.

(** ** C8 *)

(** C8, as stated, fails: items may share an alias (the [Item] doc asks only
    for one distinct alias per item).  In [closet], removing KEY leaves the
    spare key, which [GetItemByAlias "KEY"] still finds. *)
Lemma C8_shared_alias_still_found :
  In "KEY" (Item.Aliases key_item)
  /\ Room.Items (RemoveItem closet "KEY") = [spare_key]
  /\ GetItemByAlias (RemoveItem closet "KEY") "KEY" = Some spare_key.
Proof. split; [simpl; tauto | split; reflexivity]. Qed.

(** C8 (amended): [RemoveItem L] on a room with no item labelled L leaves the
    room unchanged ([RemoveItem] has no error result); when it removes the
    first item labelled L, the remaining items are the others in order, and
    [GetItemByAlias] returns absent for an alias of the removed item that no
    other item of the room carries. *)
Theorem C8_RemoveItem (room : Room) (label alias : string) (pre post : list Item) (it : Item) :
  (Forall (fun i => Item.Label i <> label) (Room.Items room) -> RemoveItem room label = room)
  /\ (Room.Items room = (pre ++ it :: post)%list -> Item.Label it = label ->
      Forall (fun i => Item.Label i <> label) pre -> In alias (Item.Aliases it) ->
      Forall (fun i => ~ In alias (Item.Aliases i)) (pre ++ post)%list ->
      Room.Items (RemoveItem room label) = (pre ++ post)%list
      /\ GetItemByAlias (RemoveItem room label) alias = None).
Proof.
  split.
  - intros H. unfold RemoveItem. rewrite item_index_absent by exact H. reflexivity.
  - intros Hi Hl Hpre _ Hnone.
    assert (Room.Items (RemoveItem room label) = (pre ++ post)%list) as Hr.
    { unfold RemoveItem. rewrite Hi, (item_index_app _ _ _ _ Hpre Hl). simpl.
      apply take_drop_skip. }
    split; [exact Hr|]. apply GetItemByAlias_absent. rewrite Hr. exact Hnone.
Qed.

Lemma C8_RemoveItem_witness :
  RemoveItem closet "LAMP" = closet
  /\ Room.Items (RemoveItem closet "SPARE_KEY") = [key_item]
  /\ GetItemByAlias (RemoveItem closet "SPARE_KEY") "SPARE" = None.
Proof.
  assert (Hf : Forall (fun i => Item.Label i <> "LAMP") (Room.Items closet)).
  { repeat constructor; discriminate. }
  assert (Hn : Forall (fun i => ~ In "SPARE" (Item.Aliases i)) ([key_item] ++ [])%list).
  { repeat constructor. simpl. intros [H|H]; [discriminate | exact H]. }
  assert (Hp : Forall (fun i => Item.Label i <> "SPARE_KEY") [key_item]).
  { repeat constructor; discriminate. }
  assert (Ha : In "SPARE" (Item.Aliases spare_key)) by (simpl; tauto).
  split.
  - exact (proj1 (C8_RemoveItem closet "LAMP" "LAMP" [] [] key_item) Hf).
  - exact (proj2 (C8_RemoveItem closet "SPARE_KEY" "SPARE" [key_item] [] spare_key)
             eq_refl eq_refl Hp Ha Hn).
Defined.

(** ** C10 *)

(** C10, as stated, fails: EXITS can fail, when the output stream reports an
    error on flush. *)
Lemma C10_exits_flush_error :
  Advance default_state (mkCommand "EXITS" "" "") (mkWriter false true)
  = Ok (default_state, Some (exits_narration (Room.Exits your_room) ++ nl ++ nl), Some ErrFlush).
Proof. reflexivity. Qed.

(** C10 (amended): with a non-nil current room, EXITS leaves the state
    unchanged and writes the spec's exit table (per exit, in order: aliases
    joined by "/", " -> ", the exit's description, a line break) followed by
    a blank line; it returns nil unless writing or flushing the output fails,
    in which case it returns that error. *)
Theorem C10_Advance_exits (gs : State) (cur : Room) (cmd : Command) (w : Writer) :
  CurrentRoom gs = Some cur -> Verb cmd = "EXITS" ->
  Advance gs cmd w = Ok (gs, Some (exits_narration (Room.Exits cur) ++ nl ++ nl), io_error w).
Proof.
  intros Hc Hv. unfold Advance. rewrite Hv, Hc. simpl.
  unfold emit, io_error. rewrite exit_table_spec.
  destruct (write_fails w), (flush_fails w); reflexivity.
Qed.

Lemma C10_Advance_exits_witness :
  CurrentRoom default_state = Some your_room
  /\ Verb (mkCommand "EXITS" "" "") = "EXITS"
  /\ Advance default_state (mkCommand "EXITS" "" "") okWriter
     = Ok (default_state,
           Some ("BATHROOM/TOILET/DOOR/EAST -> your bathroom door" ++ nl
                 ++ "HALLWAY/HALL/OUT/SOUTH -> the door to the hall" ++ nl ++ nl ++ nl), None).
Proof.
  split; [reflexivity|]. split; [reflexivity|].
  rewrite (C10_Advance_exits default_state your_room (mkCommand "EXITS" "" "") okWriter
             eq_refl eq_refl).
  reflexivity.
Defined.

(** * Further properties of the game package *)

(** ** Helpers *)





Lemma item_scan_spec (alias : string) (items : list Item) (it : option Item) (found : bool) :
  item_scan alias items it found
  = (List.last (map Some items) it,
     found || existsb (fun i => has_alias (Item.Aliases i) alias) items).
Proof.
  revert it found. induction items as [|i rest IH]; intros it found; simpl.
  - rewrite orb_false_r. reflexivity.
  - rewrite IH, orb_assoc. f_equal. symmetry. apply last_cons_default.
Qed.

Lemma existsb_Exists_In {A} (f : A -> list string) (l : list A) (alias : string) :
  existsb (fun x => has_alias (f x) alias) l = true <-> Exists (fun x => In alias (f x)) l.
Proof.
  rewrite existsb_exists, List.Exists_exists. split.
  - intros (x & Hx & Ha). exists x. split; [exact Hx | apply has_alias_In, Ha].
  - intros (x & Hx & Ha). exists x. split; [exact Hx | apply has_alias_In, Ha].
Qed.

Lemma item_index_some (label : string) (items : list Item) (i : nat) :
  item_index label items = Some i -> (i < length items)%nat.
Proof.
  revert i. induction items as [|x rest IH]; intros i; simpl; [discriminate|].
  destruct (String.eqb (Item.Label x) label); [intros [= <-]; lia|].
  destruct (item_index label rest) as [j|]; simpl; [|discriminate].
  intros [= <-]. specialize (IH j eq_refl). lia.
Qed.

Lemma item_index_none (label : string) (items : list Item) :
  item_index label items = None
  <-> existsb (fun i => String.eqb (Item.Label i) label) items = false.
Proof.
  induction items as [|x rest IH]; simpl; [done|].
  destruct (String.eqb (Item.Label x) label); simpl; [split; discriminate|].
  rewrite <- IH. destruct (item_index label rest); simpl; split; congruence.
Qed.

(** ** Advance (rooms.go) *)

(** X1: only GO changes the state: for every other verb, whatever the
    outcome (an error, a write or flush failure, or success), the state after
    [Advance] is the state before. *)
Theorem Advance_state_unchanged_unless_go (gs gs' : State) (cmd : Command) (w : Writer)
    (text : option string) (e : option error) :
  Verb cmd <> "GO" -> Advance gs cmd w = Ok (gs', text, e) -> gs' = gs.
Proof.
  intros Hv H. apply String.eqb_neq in Hv. unfold Advance in H. rewrite Hv in H.
  repeat (case_match; simplify_eq; try done);
    match goal with
    | Hem : emit _ _ _ = Ok _ |- _ => apply emit_state in Hem as [-> _]; reflexivity
    end.
Qed.

Lemma Advance_state_unchanged_unless_go_witness :
  Verb (mkCommand "LOOK" "" "") <> "GO"
  /\ Advance default_state (mkCommand "LOOK" "" "") (mkWriter true false)
     = Ok (default_state, Some (Room.Description your_room ++ nl ++ nl), Some ErrWrite)
  /\ default_state = default_state.
Proof.
  assert (Hv : Verb (mkCommand "LOOK" "" "") <> "GO") by discriminate.
  assert (Ha : Advance default_state (mkCommand "LOOK" "" "") (mkWriter true false)
     = Ok (default_state, Some (Room.Description your_room ++ nl ++ nl), Some ErrWrite))
    by reflexivity.
  split; [exact Hv|]. split; [exact Ha|].
  exact (Advance_state_unchanged_unless_go _ _ _ _ _ _ Hv Ha).
Defined.

(** X2: [Advance] never changes the World map or the Inventory. *)
Theorem Advance_keeps_world_and_inventory (gs gs' : State) (cmd : Command) (w : Writer)
    (text : option string) (e : option error) :
  Advance gs cmd w = Ok (gs', text, e) -> World gs' = World gs /\ Inventory gs' = Inventory gs.
Proof.
  intros H. unfold Advance in H.
  repeat (case_match; simplify_eq; try done);
    match goal with
    | Hem : emit _ _ _ = Ok _ |- _ => apply emit_state in Hem as [-> _]; split; reflexivity
    end.
Qed.

Lemma Advance_keeps_world_and_inventory_witness :
  Advance default_state (mkCommand "GO" "" "SOUTH") okWriter
  = Ok (mkState (Some default_world) (Some hallway) [],
        Some ("You shut the door behind you as you go into the hall." ++ nl ++ nl), None)
  /\ World (mkState (Some default_world) (Some hallway) []) = World default_state
  /\ Inventory (mkState (Some default_world) (Some hallway) []) = Inventory default_state.
Proof.
  assert (Ha : Advance default_state (mkCommand "GO" "" "SOUTH") okWriter
    = Ok (mkState (Some default_world) (Some hallway) [],
          Some ("You shut the door behind you as you go into the hall." ++ nl ++ nl), None))
    by reflexivity.
  split; [exact Ha|]. exact (Advance_keeps_world_and_inventory _ _ _ _ _ _ Ha).
Defined.

(** X4: GO with a Recipient that some exit of the current room carries moves
    [CurrentRoom] to [World[DestLabel]] of the room's last exit (nil when that
    label is missing) and writes the last exit's TravelMessage; the error is
    the write or flush error, if any. *)
Theorem Advance_go_uses_last_exit (gs : State) (cur : Room) (pre : list Egress) (last : Egress)
    (cmd : Command) (w : Writer) :
  CurrentRoom gs = Some cur -> Room.Exits cur = (pre ++ [last])%list -> Verb cmd = "GO" ->
  Exists (fun e => In (Recipient cmd) (Egress.Aliases e)) (Room.Exits cur) ->
  Advance gs cmd w
  = Ok (mkState (World gs) (map_get (World gs) (Egress.DestLabel last)) (Inventory gs),
        Some (Egress.TravelMessage last ++ nl ++ nl), io_error w).
Proof.
  intros Hc He Hv Hex.
  assert (GetEgress cur (Recipient cmd) = Some last) as Hg.
  { rewrite GetEgress_spec. apply (existsb_Exists_In Egress.Aliases) in Hex. rewrite Hex, He.
    rewrite map_app. apply last_last. }
  unfold Advance. rewrite Hv, Hc. simpl. rewrite Hg. unfold emit, io_error.
  destruct (write_fails w), (flush_fails w); reflexivity.
Qed.

Lemma Advance_go_uses_last_exit_witness :
  Exists (fun e => In "SOUTH" (Egress.Aliases e)) (Room.Exits your_room)
  /\ Advance default_state (mkCommand "GO" "" "SOUTH") okWriter
     = Ok (mkState (Some default_world) (Some hallway) [],
           Some (Egress.TravelMessage bedroom_to_hallway ++ nl ++ nl), None).
Proof.
  assert (Hex : Exists (fun e => In "SOUTH" (Egress.Aliases e)) (Room.Exits your_room)).
  { apply Exists_cons_tl, Exists_cons_hd. simpl. tauto. }
  split; [exact Hex|].
  exact (Advance_go_uses_last_exit default_state your_room [bedroom_to_bathroom]
           bedroom_to_hallway (mkCommand "GO" "" "SOUTH") okWriter eq_refl eq_refl eq_refl Hex).
Defined.

(** X5 witness: GO UP from YOUR_ROOM. *)
Lemma Advance_go_no_exit_witness :
  ~ Exists (fun e => In "UP" (Egress.Aliases e)) (Room.Exits your_room)
  /\ Advance default_state (mkCommand "GO" "" "UP") okWriter
     = Ok (default_state, None, Some (ErrNoSuchExit "UP")).
Proof.
  assert (Hn : ~ Exists (fun e => In "UP" (Egress.Aliases e)) (Room.Exits your_room)).
  { intros Hex. apply List.Exists_exists in Hex as (e & He & Ha). simpl in He.
    repeat (destruct He as [He|He]; [subst e; simpl in Ha;
            repeat (destruct Ha as [Ha|Ha]; [discriminate|]); exact Ha|]). exact He. }
  split; [exact Hn|].
  exact (Advance_go_no_exit default_state your_room (mkCommand "GO" "" "UP") okWriter
           eq_refl eq_refl Hn).
Defined.

(** X6 witness: the no-such-exit error of GO UP. *)
Lemma Advance_command_error_unchanged_witness :
  Advance default_state (mkCommand "GO" "" "UP") (mkWriter true true)
  = Ok (default_state, None, Some (ErrNoSuchExit "UP"))
  /\ default_state = default_state.
Proof.
  assert (Ha : Advance default_state (mkCommand "GO" "" "UP") (mkWriter true true)
               = Ok (default_state, None, Some (ErrNoSuchExit "UP"))) by reflexivity.
  split; [exact Ha|].
  exact (Advance_command_error_unchanged _ _ _ _ _ _ Ha ltac:(discriminate) ltac:(discriminate)).
Defined.

(** X7: LOOK with a non-empty Recipient fails with the unsupported-target
    error, writes nothing and does not touch the current room (even a nil
    one); with an empty Recipient it writes the current room's Description
    followed by a blank line and leaves the state unchanged. *)
Theorem Advance_look (gs : State) (cmd : Command) (w : Writer) :
  Verb cmd = "LOOK" ->
  (Recipient cmd <> "" -> Advance gs cmd w = Ok (gs, None, Some ErrLookTarget))
  /\ (forall cur : Room, Recipient cmd = "" -> CurrentRoom gs = Some cur ->
      Advance gs cmd w = Ok (gs, Some (Room.Description cur ++ nl ++ nl), io_error w)).
Proof.
  intros Hv. split.
  - intros Hr. apply String.eqb_neq in Hr. unfold Advance. rewrite Hv. simpl. rewrite Hr.
    reflexivity.
  - intros cur Hr Hc. unfold Advance. rewrite Hv, Hr, Hc. simpl. unfold emit, io_error.
    destruct (write_fails w), (flush_fails w); reflexivity.
Qed.

Lemma Advance_look_witness :
  Advance (mkState None None []) (mkCommand "LOOK" "" "DOOR") okWriter
  = Ok (mkState None None [], None, Some ErrLookTarget)
  /\ Advance default_state (mkCommand "LOOK" "" "") okWriter
     = Ok (default_state, Some (Room.Description your_room ++ nl ++ nl), None).
Proof.
  split.
  - exact (proj1 (Advance_look (mkState None None []) (mkCommand "LOOK" "" "DOOR") okWriter
                    eq_refl) ltac:(discriminate)).
  - exact (proj2 (Advance_look default_state (mkCommand "LOOK" "" "") okWriter eq_refl)
             your_room eq_refl eq_refl).
Defined.

(** X8: the verbs that never use the current room: DEBUG with a target other
    than ROOM fails naming the target; a verb outside QUIT, GO, EXITS, LOOK,
    DEBUG and HELP fails naming the verb (neither writes anything nor changes
    the state); HELP writes the fixed help text and a blank line.  All three
    work with a nil current room. *)
Theorem Advance_roomless_verbs (gs : State) (cmd : Command) (w : Writer) :
  (Verb cmd = "DEBUG" -> Recipient cmd <> "ROOM" ->
   Advance gs cmd w = Ok (gs, None, Some (ErrDebugTarget (Recipient cmd))))
  /\ (known_verb (Verb cmd) = false ->
      Advance gs cmd w = Ok (gs, None, Some (ErrUnknownVerb (Verb cmd))))
  /\ (Verb cmd = "HELP" -> Advance gs cmd w = Ok (gs, Some (help_text ++ nl ++ nl), io_error w)).
Proof.
  split; [|split].
  - intros Hv Hr. apply String.eqb_neq in Hr. unfold Advance. rewrite Hv. simpl.
    rewrite Hr. reflexivity.
  - intros Hk. unfold known_verb in Hk. simpl in Hk.
    apply orb_false_elim in Hk as [H1 Hk]. apply orb_false_elim in Hk as [H2 Hk].
    apply orb_false_elim in Hk as [H3 Hk]. apply orb_false_elim in Hk as [H4 Hk].
    apply orb_false_elim in Hk as [H5 Hk]. apply orb_false_elim in Hk as [H6 _].
    unfold Advance. rewrite H1, H2, H3, H4, H5, H6. reflexivity.
  - intros Hv. unfold Advance. rewrite Hv. simpl. unfold emit, io_error.
    destruct (write_fails w), (flush_fails w); reflexivity.
Qed.

Lemma Advance_roomless_verbs_witness :
  Advance (mkState None None []) (mkCommand "DEBUG" "" "WORLD") okWriter
  = Ok (mkState None None [], None, Some (ErrDebugTarget "WORLD"))
  /\ Advance (mkState None None []) (mkCommand "DANCE" "" "") okWriter
     = Ok (mkState None None [], None, Some (ErrUnknownVerb "DANCE")).
Proof.
  split.
  - exact (proj1 (Advance_roomless_verbs (mkState None None []) (mkCommand "DEBUG" "" "WORLD")
                    okWriter) eq_refl ltac:(discriminate)).
  - exact (proj1 (proj2 (Advance_roomless_verbs (mkState None None [])
                           (mkCommand "DANCE" "" "") okWriter)) eq_refl).
Defined.

(** ** Lookups and RemoveItem (game.go, part_000) *)

(** X9: [GetEgressByAlias] returns nil when no exit carries the alias, and
    otherwise the room's last exit, whichever exit carries it. *)
Theorem GetEgressByAlias_result (room : Room) (alias : string) :
  (~ Exists (fun e => In alias (Egress.Aliases e)) (Room.Exits room) ->
   GetEgressByAlias room alias = None)
  /\ (forall (pre : list Egress) (last : Egress), Room.Exits room = (pre ++ [last])%list ->
      Exists (fun e => In alias (Egress.Aliases e)) (Room.Exits room) ->
      GetEgressByAlias room alias = Some last).
Proof.
  rewrite GetEgressByAlias_spec. split.
  - intros Hn. destruct (existsb _ _) eqn:E; [|reflexivity].
    exfalso. apply Hn. apply (existsb_Exists_In Egress.Aliases). exact E.
  - intros pre last He Hex. apply (existsb_Exists_In Egress.Aliases) in Hex.
    rewrite Hex, He, map_app. apply last_last.
Qed.

Lemma GetEgressByAlias_result_witness :
  GetEgressByAlias your_room "UP" = None
  /\ GetEgressByAlias your_room "DOOR" = Some bedroom_to_hallway.
Proof.
  assert (Hn : ~ Exists (fun e => In "UP" (Egress.Aliases e)) (Room.Exits your_room)).
  { intros Hex. apply List.Exists_exists in Hex as (e & He & Ha). simpl in He.
    repeat (destruct He as [He|He]; [subst e; simpl in Ha;
            repeat (destruct Ha as [Ha|Ha]; [discriminate|]); exact Ha|]). exact He. }
  assert (Hd : Exists (fun e => In "DOOR" (Egress.Aliases e)) (Room.Exits your_room)).
  { apply Exists_cons_hd. simpl. tauto. }
  split.
  - exact (proj1 (GetEgressByAlias_result your_room "UP") Hn).
  - exact (proj2 (GetEgressByAlias_result your_room "DOOR") [bedroom_to_bathroom]
             bedroom_to_hallway eq_refl Hd).
Defined.

(** X10: [Room.GetItemByAlias] returns nil when no item carries the alias, and
    otherwise the room's last item, whichever item carries it. *)
Theorem GetItemByAlias_result (room : Room) (alias : string) :
  (~ Exists (fun i => In alias (Item.Aliases i)) (Room.Items room) ->
   GetItemByAlias room alias = None)
  /\ (forall (pre : list Item) (last : Item), Room.Items room = (pre ++ [last])%list ->
      Exists (fun i => In alias (Item.Aliases i)) (Room.Items room) ->
      GetItemByAlias room alias = Some last).
Proof.
  unfold GetItemByAlias. rewrite item_scan_spec. simpl. split.
  - intros Hn. destruct (existsb _ _) eqn:E; [|reflexivity].
    exfalso. apply Hn. apply (existsb_Exists_In Item.Aliases). exact E.
  - intros pre last He Hex. apply (existsb_Exists_In Item.Aliases) in Hex.
    rewrite Hex, He, map_app. apply last_last.
Qed.

Lemma GetItemByAlias_result_witness :
  GetItemByAlias closet "LAMP" = None /\ GetItemByAlias closet "KEY" = Some spare_key.
Proof.
  assert (Hn : ~ Exists (fun i => In "LAMP" (Item.Aliases i)) (Room.Items closet)).
  { intros Hex. apply List.Exists_exists in Hex as (e & He & Ha). simpl in He.
    repeat (destruct He as [He|He]; [subst e; simpl in Ha;
            repeat (destruct Ha as [Ha|Ha]; [discriminate|]); exact Ha|]). exact He. }
  assert (Hk : Exists (fun i => In "KEY" (Item.Aliases i)) (Room.Items closet)).
  { apply Exists_cons_hd. simpl. tauto. }
  split.
  - exact (proj1 (GetItemByAlias_result closet "LAMP") Hn).
  - exact (proj2 (GetItemByAlias_result closet "KEY") [key_item] spare_key eq_refl Hk).
Defined.

(** X11: [RemoveItem] keeps the room's label, name, description and exits,
    and removes exactly one item when some item has the label, none
    otherwise. *)
Theorem RemoveItem_shape (room : Room) (label : string) :
  Room.Label (RemoveItem room label) = Room.Label room
  /\ Room.Name (RemoveItem room label) = Room.Name room
  /\ Room.Description (RemoveItem room label) = Room.Description room
  /\ Room.Exits (RemoveItem room label) = Room.Exits room
  /\ length (Room.Items (RemoveItem room label))
     = (length (Room.Items room)
        - (if existsb (fun i => String.eqb (Item.Label i) label) (Room.Items room)
           then 1 else 0))%nat.
Proof.
  unfold RemoveItem. destruct (item_index label (Room.Items room)) as [i|] eqn:E.
  - pose proof (item_index_some _ _ _ E) as Hlt.
    destruct (existsb _ _) eqn:Ex.
    + simpl. repeat split.
      rewrite length_app, length_take, length_drop. lia.
    + apply item_index_none in Ex. congruence.
  - apply item_index_none in E. rewrite E. repeat split. lia.
Qed.

(** ** ParseCommand *)




(** ** Package initialisation *)

(** X13: the package [init] of the first rooms.go panics with "assignment to
    entry in nil map" for every non-empty [roomDefs], the one it ships
    included: [AllRooms] is never allocated. *)
Theorem init_panics (r : Room) (rs : list Room) :
  init (r :: rs) = Panic nil_map_msg /\ init roomDefs = Panic nil_map_msg.
Proof. unfold init. simpl. rewrite !alias_check_empty. split; reflexivity. Qed.

(** ** The Room-valued Advance (part_000) *)

(** X15: in the Room-valued [Advance], GO through a last exit whose DestLabel
    is not in [AllRooms] succeeds (with working output) and puts the player
    in the zero [Room{}]; from there every GO fails with the no-such-exit
    error naming its Recipient and leaves the state as it was. *)
Theorem Advance_v1_go_missing_label (AllRooms : option (gmap string Room)) (gs : StateV1)
    (pre : list Egress) (last : Egress) (cmd : Command) :
  Room.Exits (V1Room gs) = (pre ++ [last])%list -> Verb cmd = "GO" ->
  Exists (fun e => In (Recipient cmd) (Egress.Aliases e)) (Room.Exits (V1Room gs)) ->
  (forall g, AllRooms = Some g -> g !! Egress.DestLabel last = None) ->
  Advance_v1 AllRooms gs cmd okWriter
  = (mkStateV1 zeroRoom (V1Inventory gs), Some (Egress.TravelMessage last ++ nl ++ nl), None)
  /\ (forall (cmd' : Command) (w : Writer), Verb cmd' = "GO" ->
      Advance_v1 AllRooms (mkStateV1 zeroRoom (V1Inventory gs)) cmd' w
      = (mkStateV1 zeroRoom (V1Inventory gs), None, Some (ErrNoSuchExit (Recipient cmd')))).
Proof.
  intros He Hv Hex Hm. split.
  - assert (GetEgress (V1Room gs) (Recipient cmd) = Some last) as Hg.
    { rewrite GetEgress_spec. apply (existsb_Exists_In Egress.Aliases) in Hex.
      rewrite Hex, He, map_app. apply last_last. }
    assert (rooms_get AllRooms (Egress.DestLabel last) = zeroRoom) as Hz.
    { destruct AllRooms as [g|]; [|reflexivity]. simpl. rewrite (Hm g eq_refl). reflexivity. }
    unfold Advance_v1. rewrite Hv. simpl. rewrite Hg, Hz. reflexivity.
  - intros cmd' w Hv'. unfold Advance_v1. rewrite Hv'. reflexivity.
Qed.

Lemma Advance_v1_go_missing_label_witness :
  Advance_v1 None (mkStateV1 dangling_room []) (mkCommand "GO" "" "PORTAL") okWriter
  = (mkStateV1 zeroRoom [], Some (Egress.TravelMessage portal_out ++ nl ++ nl), None).
Proof.
  assert (Hex : Exists (fun e => In "PORTAL" (Egress.Aliases e)) (Room.Exits dangling_room)).
  { apply Exists_cons_hd. simpl. tauto. }
  exact (proj1 (Advance_v1_go_missing_label None (mkStateV1 dangling_room []) [] portal_out
                  (mkCommand "GO" "" "PORTAL") eq_refl eq_refl Hex
                  (fun g Hg => match Hg with eq_refl => I end))).
Defined.
